(** * CPU feature detection for the ARM back end (runtime/vm/cpu_arm.h)

    A shallow embedding of the two all-static classes [HostCPUFeatures] and
    [TargetCPUFeatures].  The static data members of [HostCPUFeatures] form
    one record that every operation threads explicitly; a failed
    [DEBUG_ASSERT] is an outcome of its own, so that "the guard fires" is a
    statement about the result of a call. *)

From Stdlib Require Import Bool ZArith String List.
Import ListNotations.

Local Open Scope string_scope.
Local Open Scope list_scope.

(** ** Build configuration

    The header is compiled under two preprocessor symbols: [DEBUG] (the
    [initialized_] member and the assertion guards) and [HOST_ARCH_ARM]
    (set when the VM runs on ARM hardware, unset when ARM code is run in the
    simulator on another host). *)

Record Build : Set := {
  DEBUG : bool;
  HOST_ARCH_ARM : bool
}.

(** ** Static storage of [HostCPUFeatures]

    [hardware_] is a [const char*]: [None] is the null pointer, [Some str]
    a pointer to the C string [str].  [store_pc_read_offset_] is an
    [intptr_t] that the header only stores and returns, so no wrap-around
    arises and it is kept as an integer.  [initialized_] is declared under
    [#if defined(DEBUG)]; the only reads of it in the header are inside
    [DEBUG_ASSERT], which vanishes in the other builds, where the field is a
    ghost marker of the lifecycle. *)

Record HostState : Set := {
  hardware_ : option string;
  integer_division_supported_ : bool;
  neon_supported_ : bool;
  hardfp_supported_ : bool;
  store_pc_read_offset_ : Z;
  initialized_ : bool
}.

(** The two assignments of the header, as record updates. *)

Definition assign_integer_division_supported_ (supported : bool) (s : HostState)
  : HostState :=
  {| hardware_ := hardware_ s;
     integer_division_supported_ := supported;
     neon_supported_ := neon_supported_ s;
     hardfp_supported_ := hardfp_supported_ s;
     store_pc_read_offset_ := store_pc_read_offset_ s;
     initialized_ := initialized_ s |}.

Definition assign_neon_supported_ (supported : bool) (s : HostState)
  : HostState :=
  {| hardware_ := hardware_ s;
     integer_division_supported_ := integer_division_supported_ s;
     neon_supported_ := supported;
     hardfp_supported_ := hardfp_supported_ s;
     store_pc_read_offset_ := store_pc_read_offset_ s;
     initialized_ := initialized_ s |}.

(** ** Outcomes and the monad of static member functions

    A call either returns a value and leaves a state, or aborts the process
    in a failed assertion, or names a member that the build does not
    declare (the setters under [HOST_ARCH_ARM]). *)

Inductive Outcome (A : Type) : Type :=
| Returns (a : A) (s : HostState)
| AssertionFailed
| Undeclared.

Arguments Returns {A} a s.
Arguments AssertionFailed {A}.
Arguments Undeclared {A}.

Definition M (A : Type) : Type := HostState -> Outcome A.

Definition ret {A : Type} (a : A) : M A := fun s => Returns a s.

Definition bind {A B : Type} (m : M A) (k : A -> M B) : M B :=
  fun s =>
    match m s with
    | Returns a s' => k a s'
    | AssertionFailed => AssertionFailed
    | Undeclared => Undeclared
    end.

Declare Scope cpu_scope.
Delimit Scope cpu_scope with cpu.
Notation "x <- m ;; k" := (bind m (fun x => k))
  (at level 61, m at next level, right associativity) : cpu_scope.
Notation "m ;; k" := (bind m (fun _ => k))
  (at level 61, right associativity) : cpu_scope.
Local Open Scope cpu_scope.

(** Reading a static member, and overwriting the static storage. *)

Definition read {A : Type} (field : HostState -> A) : M A :=
  fun s => Returns (field s) s.

Definition write (f : HostState -> HostState) : M unit :=
  fun s => Returns tt (f s).

(** Modelled from the spec: the macro [DEBUG_ASSERT] comes from
    platform/assert.h, which is not part of the sources at hand.  It is an
    assertion in debug builds, fatal when its condition is false, and no
    check at all in the other builds. *)

Definition DEBUG_ASSERT (cfg : Build) (cond : HostState -> bool) : M unit :=
  fun s =>
    if DEBUG cfg
    then if cond s then Returns tt s else AssertionFailed
    else Returns tt s.

(** Members between [#if !defined(HOST_ARCH_ARM)] and [#endif]. *)

Definition if_not_defined_HOST_ARCH_ARM {A : Type} (cfg : Build) (m : M A)
  : M A :=
  fun s => if HOST_ARCH_ARM cfg then Undeclared else m s.

(** ** The capability probe

    Modelled from the spec: [Init] consumes an opaque platform descriptor
    that it parses into the cached fields, or nothing recognizable, in
    which case the flags take the default [false] and the name the empty
    string.  A field of the probe is [None] when the descriptor carries no
    recognizable data for it.  The store-PC read offset is a constant of the
    architecture and is always supplied. *)

Record Probe : Set := {
  probe_hardware : option string;
  probe_integer_division : option bool;
  probe_neon : option bool;
  probe_hardfp : option bool;
  probe_store_pc_read_offset : Z
}.

Definition recognized {A : Type} (default : A) (o : option A) : A :=
  match o with
  | Some a => a
  | None => default
  end.

(** A probe that yields no recognizable data. *)

Definition unrecognizable (p : Probe) : Prop :=
  probe_hardware p = None /\
  probe_integer_division p = None /\
  probe_neon p = None /\
  probe_hardfp p = None.

Definition populate (p : Probe) : HostState :=
  {| hardware_ := Some (recognized "" (probe_hardware p));
     integer_division_supported_ := recognized false (probe_integer_division p);
     neon_supported_ := recognized false (probe_neon p);
     hardfp_supported_ := recognized false (probe_hardfp p);
     store_pc_read_offset_ := probe_store_pc_read_offset p;
     initialized_ := true |}.

Definition release (s : HostState) : HostState :=
  {| hardware_ := None;
     integer_division_supported_ := integer_division_supported_ s;
     neon_supported_ := neon_supported_ s;
     hardfp_supported_ := hardfp_supported_ s;
     store_pc_read_offset_ := store_pc_read_offset_ s;
     initialized_ := false |}.

(** ** class HostCPUFeatures *)

Module HostCPUFeatures.

(** Modelled from the spec: the header only declares [Init]; its body is
    in cpu_arm.cc, which is missing.  [Init] probes the environment,
    populates the five fields, and fails in an assertion of the debug
    build if called while already initialized. *)
Definition Init (cfg : Build) (p : Probe) : M unit :=
  DEBUG_ASSERT cfg (fun s => negb (initialized_ s)) ;;
  write (fun _ => populate p).

(** Modelled from the spec: the header only declares [Cleanup]; its body
    is in cpu_arm.cc, which is missing.  [Cleanup] releases the hardware
    name and resets the initialized flag, and fails in an assertion of the
    debug build if called without a prior [Init]. *)
Definition Cleanup (cfg : Build) : M unit :=
  DEBUG_ASSERT cfg initialized_ ;;
  write release.

Definition hardware (cfg : Build) : M (option string) :=
  DEBUG_ASSERT cfg initialized_ ;;
  read hardware_.

Definition integer_division_supported (cfg : Build) : M bool :=
  DEBUG_ASSERT cfg initialized_ ;;
  read integer_division_supported_.

Definition neon_supported (cfg : Build) : M bool :=
  DEBUG_ASSERT cfg initialized_ ;;
  read neon_supported_.

Definition hardfp_supported (cfg : Build) : M bool :=
  DEBUG_ASSERT cfg initialized_ ;;
  read hardfp_supported_.

Definition store_pc_read_offset (cfg : Build) : M Z :=
  DEBUG_ASSERT cfg initialized_ ;;
  read store_pc_read_offset_.

Definition set_integer_division_supported (cfg : Build) (supported : bool)
  : M unit :=
  if_not_defined_HOST_ARCH_ARM cfg
    (DEBUG_ASSERT cfg initialized_ ;;
     write (assign_integer_division_supported_ supported)).

Definition set_neon_supported (cfg : Build) (supported : bool) : M unit :=
  if_not_defined_HOST_ARCH_ARM cfg
    (DEBUG_ASSERT cfg initialized_ ;;
     write (assign_neon_supported_ supported)).

End HostCPUFeatures.

(** ** class TargetCPUFeatures

    The class has no data members: every operation acts on the static
    storage of [HostCPUFeatures]. *)

Module TargetCPUFeatures.

Definition Init (cfg : Build) (p : Probe) : M unit :=
  HostCPUFeatures.Init cfg p.

Definition Cleanup (cfg : Build) : M unit :=
  HostCPUFeatures.Cleanup cfg.

Definition double_truncate_round_supported (cfg : Build) : M bool :=
  ret false.

Definition integer_division_supported (cfg : Build) : M bool :=
  HostCPUFeatures.integer_division_supported cfg.

Definition neon_supported (cfg : Build) : M bool :=
  HostCPUFeatures.neon_supported cfg.

Definition hardfp_supported (cfg : Build) : M bool :=
  HostCPUFeatures.hardfp_supported cfg.

Definition hardware (cfg : Build) : M (option string) :=
  HostCPUFeatures.hardware cfg.

Definition store_pc_read_offset (cfg : Build) : M Z :=
  HostCPUFeatures.store_pc_read_offset cfg.

End TargetCPUFeatures.

(** ** Call sequences

    The public surface of the two classes as a type of calls, so that
    statements can range over every sequence of calls a client makes. *)

Inductive Value : Set :=
| VVoid
| VBool (b : bool)
| VString (p : option string)
| VInt (z : Z).

Inductive Call : Set :=
| Host_Init (p : Probe)
| Host_Cleanup
| Host_hardware
| Host_integer_division_supported
| Host_neon_supported
| Host_hardfp_supported
| Host_store_pc_read_offset
| Host_set_integer_division_supported (supported : bool)
| Host_set_neon_supported (supported : bool)
| Target_Init (p : Probe)
| Target_Cleanup
| Target_double_truncate_round_supported
| Target_integer_division_supported
| Target_neon_supported
| Target_hardfp_supported
| Target_hardware
| Target_store_pc_read_offset.

Definition returning {A : Type} (inj : A -> Value) (m : M A) : M Value :=
  a <- m ;; ret (inj a).

Definition void (_ : unit) : Value := VVoid.

Definition call (cfg : Build) (c : Call) : M Value :=
  match c with
  | Host_Init p => returning void (HostCPUFeatures.Init cfg p)
  | Host_Cleanup => returning void (HostCPUFeatures.Cleanup cfg)
  | Host_hardware => returning VString (HostCPUFeatures.hardware cfg)
  | Host_integer_division_supported =>
      returning VBool (HostCPUFeatures.integer_division_supported cfg)
  | Host_neon_supported => returning VBool (HostCPUFeatures.neon_supported cfg)
  | Host_hardfp_supported =>
      returning VBool (HostCPUFeatures.hardfp_supported cfg)
  | Host_store_pc_read_offset =>
      returning VInt (HostCPUFeatures.store_pc_read_offset cfg)
  | Host_set_integer_division_supported b =>
      returning void (HostCPUFeatures.set_integer_division_supported cfg b)
  | Host_set_neon_supported b =>
      returning void (HostCPUFeatures.set_neon_supported cfg b)
  | Target_Init p => returning void (TargetCPUFeatures.Init cfg p)
  | Target_Cleanup => returning void (TargetCPUFeatures.Cleanup cfg)
  | Target_double_truncate_round_supported =>
      returning VBool (TargetCPUFeatures.double_truncate_round_supported cfg)
  | Target_integer_division_supported =>
      returning VBool (TargetCPUFeatures.integer_division_supported cfg)
  | Target_neon_supported =>
      returning VBool (TargetCPUFeatures.neon_supported cfg)
  | Target_hardfp_supported =>
      returning VBool (TargetCPUFeatures.hardfp_supported cfg)
  | Target_hardware => returning VString (TargetCPUFeatures.hardware cfg)
  | Target_store_pc_read_offset =>
      returning VInt (TargetCPUFeatures.store_pc_read_offset cfg)
  end.

(** Runs the calls in order and collects what they return; the first
    failing call ends the run. *)

Fixpoint run (cfg : Build) (cs : list Call) : M (list Value) :=
  match cs with
  | [] => ret []
  | c :: cs' => v <- call cfg c ;; vs <- run cfg cs' ;; ret (v :: vs)
  end.

(** The [HostCPUFeatures] member that a [TargetCPUFeatures] member names in
    its body; every other call is mapped to itself. *)

Definition host_of (c : Call) : Call :=
  match c with
  | Target_Init p => Host_Init p
  | Target_Cleanup => Host_Cleanup
  | Target_integer_division_supported => Host_integer_division_supported
  | Target_neon_supported => Host_neon_supported
  | Target_hardfp_supported => Host_hardfp_supported
  | Target_hardware => Host_hardware
  | Target_store_pc_read_offset => Host_store_pc_read_offset
  | other => other
  end.

(** The ten accessors of cached fields. *)

Definition read_accessors : list Call :=
  [ Host_hardware; Host_integer_division_supported; Host_neon_supported;
    Host_hardfp_supported; Host_store_pc_read_offset;
    Target_hardware; Target_integer_division_supported; Target_neon_supported;
    Target_hardfp_supported; Target_store_pc_read_offset ].

Definition is_lifecycle (c : Call) : bool :=
  match c with
  | Host_Init _ | Host_Cleanup | Target_Init _ | Target_Cleanup => true
  | _ => false
  end.

(** Lifecycle bookkeeping over a call sequence: [true] after an [Init] that
    no [Cleanup] has followed yet. *)

Definition lifecycle_step (open : bool) (c : Call) : bool :=
  match c with
  | Host_Init _ | Target_Init _ => true
  | Host_Cleanup | Target_Cleanup => false
  | _ => open
  end.

Definition lifecycle_open (open : bool) (cs : list Call) : bool :=
  fold_left lifecycle_step cs open.

(** The calls that assign nothing: the ten accessors of cached fields and
    [double_truncate_round_supported]. *)

Definition is_query (c : Call) : bool :=
  match c with
  | Host_hardware | Host_integer_division_supported | Host_neon_supported
  | Host_hardfp_supported | Host_store_pc_read_offset
  | Target_double_truncate_round_supported
  | Target_integer_division_supported | Target_neon_supported
  | Target_hardfp_supported | Target_hardware | Target_store_pc_read_offset =>
      true
  | _ => false
  end.

(** Call sequences between an [Init] and the next [Cleanup]: no lifecycle
    call occurs in them. *)

Definition no_lifecycle (cs : list Call) : bool :=
  forallb (fun c => negb (is_lifecycle c)) cs.

(** The assignment that a call of the header performs when it returns
    (none for a query), and the assignments of a sequence in order. *)

Definition override (c : Call) (s : HostState) : HostState :=
  match c with
  | Host_set_integer_division_supported supported =>
      assign_integer_division_supported_ supported s
  | Host_set_neon_supported supported => assign_neon_supported_ supported s
  | _ => s
  end.

Definition overrides (cs : list Call) (s : HostState) : HostState :=
  fold_left (fun s' c => override c s') cs s.

(** Concrete builds and states used in the examples. *)

Definition debug_simulator : Build := {| DEBUG := true; HOST_ARCH_ARM := false |}.
Definition release_simulator : Build := {| DEBUG := false; HOST_ARCH_ARM := false |}.
Definition debug_arm : Build := {| DEBUG := true; HOST_ARCH_ARM := true |}.

Definition process_start : HostState :=
  {| hardware_ := None;
     integer_division_supported_ := false;
     neon_supported_ := false;
     hardfp_supported_ := false;
     store_pc_read_offset_ := 0;
     initialized_ := false |}.

Definition cortex_a7 : Probe :=
  {| probe_hardware := Some "ARMv7 Processor rev 5 (v7l)";
     probe_integer_division := Some false;
     probe_neon := Some true;
     probe_hardfp := Some true;
     probe_store_pc_read_offset := 8 |}.

Definition no_data : Probe :=
  {| probe_hardware := None;
     probe_integer_division := None;
     probe_neon := None;
     probe_hardfp := None;
     probe_store_pc_read_offset := 8 |}.

(** ** Basic facts *)

Ltac unfold_members :=
  unfold call, returning, void,
    TargetCPUFeatures.Init, TargetCPUFeatures.Cleanup,
    TargetCPUFeatures.double_truncate_round_supported,
    TargetCPUFeatures.integer_division_supported,
    TargetCPUFeatures.neon_supported, TargetCPUFeatures.hardfp_supported,
    TargetCPUFeatures.hardware, TargetCPUFeatures.store_pc_read_offset,
    HostCPUFeatures.Init, HostCPUFeatures.Cleanup,
    HostCPUFeatures.hardware, HostCPUFeatures.integer_division_supported,
    HostCPUFeatures.neon_supported, HostCPUFeatures.hardfp_supported,
    HostCPUFeatures.store_pc_read_offset,
    HostCPUFeatures.set_integer_division_supported,
    HostCPUFeatures.set_neon_supported,
    if_not_defined_HOST_ARCH_ARM, DEBUG_ASSERT, bind, ret, read, write in *.

(** The scenario of the spec, run in the debug build under the simulator. *)
Example scenario :
  run debug_simulator
    [ Target_Init cortex_a7; Target_neon_supported;
      Target_integer_division_supported;
      Host_set_integer_division_supported true;
      Target_integer_division_supported; Target_Cleanup ] process_start
  = Returns [ VVoid; VBool true; VBool false; VVoid; VBool true; VVoid ]
      (release (assign_integer_division_supported_ true (populate cortex_a7)))
  /\ run debug_simulator
       [ Target_Init cortex_a7; Target_Cleanup; Target_neon_supported ]
       process_start
     = AssertionFailed.
Proof. split; reflexivity. Qed.

Lemma bind_Returns {A B : Type} (m : M A) (k : A -> M B) s b s' :
  bind m k s = Returns b s' ->
  exists a s1, m s = Returns a s1 /\ k a s1 = Returns b s'.
Proof.
  unfold bind. destruct (m s) as [a s1| |]; try discriminate.
  intros H. exists a, s1. split; [reflexivity | exact H].
Qed.

Lemma run_cons cfg c cs s :
  run cfg (c :: cs) s =
  match call cfg c s with
  | Returns v s1 =>
      match run cfg cs s1 with
      | Returns vs s2 => Returns (v :: vs) s2
      | AssertionFailed => AssertionFailed
      | Undeclared => Undeclared
      end
  | AssertionFailed => AssertionFailed
  | Undeclared => Undeclared
  end.
Proof.
  simpl. unfold bind. destruct (call cfg c s); reflexivity.
Qed.

Lemma run_app cfg cs1 cs2 s :
  run cfg (cs1 ++ cs2) s =
  match run cfg cs1 s with
  | Returns vs1 s1 =>
      match run cfg cs2 s1 with
      | Returns vs2 s2 => Returns (vs1 ++ vs2) s2
      | AssertionFailed => AssertionFailed
      | Undeclared => Undeclared
      end
  | AssertionFailed => AssertionFailed
  | Undeclared => Undeclared
  end.
Proof.
  revert s. induction cs1 as [|c cs1 IH]; intros s.
  - simpl. unfold ret. destruct (run cfg cs2 s); reflexivity.
  - rewrite <- app_comm_cons, !run_cons.
    destruct (call cfg c s) as [v s1| |]; try reflexivity.
    rewrite IH. destruct (run cfg cs1 s1) as [vs1 s2| |]; try reflexivity.
    destruct (run cfg cs2 s2); reflexivity.
Qed.

(** A call that returns without changing the state returns the same value
    when made again at once. *)
Lemma call_twice cfg c s v :
  call cfg c s = Returns v s -> run cfg [c; c] s = Returns [v; v] s.
Proof.
  intros H. rewrite run_cons, H. cbv beta iota.
  rewrite run_cons, H. reflexivity.
Qed.

(** Every call that returns moves the initialized flag as the lifecycle
    bookkeeping says. *)
Lemma call_lifecycle cfg c s v s' :
  call cfg c s = Returns v s' ->
  initialized_ s' = lifecycle_step (initialized_ s) c.
Proof.
  destruct cfg as [dbg arm], c; unfold_members; simpl;
    destruct dbg, arm, (initialized_ s) eqn:E; simpl;
    intros H; inversion H; subst; simpl; auto.
Qed.

Lemma run_lifecycle cfg cs : forall s vs s',
  run cfg cs s = Returns vs s' ->
  initialized_ s' = lifecycle_open (initialized_ s) cs.
Proof.
  induction cs as [|c cs IH]; intros s vs s' H.
  - inversion H; subst. reflexivity.
  - rewrite run_cons in H.
    destruct (call cfg c s) as [v s1| |] eqn:Hc; try discriminate.
    destruct (run cfg cs s1) as [vs1 s2| |] eqn:Hr; try discriminate.
    inversion H; subst. unfold lifecycle_open. simpl.
    rewrite <- (call_lifecycle _ _ _ _ _ Hc). exact (IH _ _ _ Hr).
Qed.

(** Calls other than [Init] and [Cleanup] leave the four fields without a
    setter as they are. *)
Lemma call_frame cfg c s v s' :
  is_lifecycle c = false ->
  call cfg c s = Returns v s' ->
  hardware_ s' = hardware_ s /\
  hardfp_supported_ s' = hardfp_supported_ s /\
  store_pc_read_offset_ s' = store_pc_read_offset_ s /\
  initialized_ s' = initialized_ s.
Proof.
  destruct cfg as [dbg arm], c; simpl; try discriminate; intros _;
    unfold_members; simpl;
    destruct dbg, arm, (initialized_ s) eqn:E; simpl;
    intros H; inversion H; subst; simpl; auto.
Qed.

(** Replacing each [TargetCPUFeatures] call by the host member it names
    changes nothing in a run. *)
Lemma run_host_of cfg cs : forall s,
  run cfg (map host_of cs) s = run cfg cs s.
Proof.
  induction cs as [|c cs IH]; intros s; [reflexivity|].
  simpl map. rewrite !run_cons.
  replace (call cfg (host_of c) s) with (call cfg c s)
    by (destruct c; reflexivity).
  destruct (call cfg c s); try reflexivity. rewrite IH. reflexivity.
Qed.

(** [Cleanup] leaves a state in which initialization has not completed. *)
Lemma Cleanup_resets cfg s u s' :
  HostCPUFeatures.Cleanup cfg s = Returns u s' -> initialized_ s' = false.
Proof.
  unfold_members. destruct (DEBUG cfg), (initialized_ s);
    intros H; inversion H; reflexivity.
Qed.

(** [Init] leaves an initialized state. *)
Lemma Init_sets cfg p s u s' :
  HostCPUFeatures.Init cfg p s = Returns u s' -> initialized_ s' = true.
Proof.
  unfold_members. destruct (DEBUG cfg), (initialized_ s);
    intros H; inversion H; reflexivity.
Qed.

(** In a debug build every accessor of a cached field is guarded. *)
Lemma read_accessors_guarded cfg s c :
  DEBUG cfg = true ->
  initialized_ s = false ->
  In c read_accessors ->
  call cfg c s = AssertionFailed.
Proof.
  intros Hdbg Hinit Hc. simpl in Hc.
  repeat (destruct Hc as [<- | Hc];
          [unfold_members; rewrite Hdbg, Hinit; reflexivity|]).
  contradiction.
Qed.

(** The scenario's last step in general: in a debug build, an accessor
    called after [Cleanup] fails in the assertion. *)
Lemma read_accessors_after_Cleanup cfg s u s' c :
  DEBUG cfg = true ->
  HostCPUFeatures.Cleanup cfg s = Returns u s' ->
  In c read_accessors ->
  call cfg c s' = AssertionFailed.
Proof.
  intros Hdbg Hclean. apply read_accessors_guarded; [exact Hdbg|].
  exact (Cleanup_resets _ _ _ _ Hclean).
Qed.

(** What the lifecycle bookkeeping computes: calls other than [Init] and
    [Cleanup] do not move it, an [Init] opens and a [Cleanup] closes. *)
Lemma lifecycle_open_app open cs1 cs2 :
  lifecycle_open open (cs1 ++ cs2)
  = lifecycle_open (lifecycle_open open cs1) cs2.
Proof. apply fold_left_app. Qed.

Lemma lifecycle_open_others cs : forall open,
  (forall c, In c cs -> is_lifecycle c = false) ->
  lifecycle_open open cs = open.
Proof.
  induction cs as [|c cs IH]; intros open Hcs; [reflexivity|].
  unfold lifecycle_open. simpl.
  assert (Hc : is_lifecycle c = false) by (apply Hcs; left; reflexivity).
  replace (lifecycle_step open c) with open
    by (destruct c; simpl in *; congruence).
  apply IH. intros c' Hc'. apply Hcs. right. exact Hc'.
Qed.

Lemma lifecycle_open_after_Init open cs1 p cs2 :
  (forall c, In c cs2 -> is_lifecycle c = false) ->
  lifecycle_open open (cs1 ++ Host_Init p :: cs2) = true.
Proof.
  intros Hcs2. rewrite lifecycle_open_app.
  change (lifecycle_open (lifecycle_open open cs1) (Host_Init p :: cs2))
    with (lifecycle_open true cs2).
  apply lifecycle_open_others, Hcs2.
Qed.

Lemma lifecycle_open_after_Cleanup open cs1 cs2 :
  (forall c, In c cs2 -> is_lifecycle c = false) ->
  lifecycle_open open (cs1 ++ Host_Cleanup :: cs2) = false.
Proof.
  intros Hcs2. rewrite lifecycle_open_app.
  change (lifecycle_open (lifecycle_open open cs1) (Host_Cleanup :: cs2))
    with (lifecycle_open false cs2).
  apply lifecycle_open_others, Hcs2.
Qed.

(** ** The forwarding view *)

(** C1: every operation of TargetCPUFeatures other than
    double_truncate_round_supported is the HostCPUFeatures operation of the
    same name: in every state (so in every state reached after Init) the five
    accessors give the outcome of the host accessors, Init and Cleanup have
    the effect of the host's Init and Cleanup, and a whole run of calls is
    unchanged when each target call is replaced by the host call. *)
Theorem Target_forwards_to_Host (cfg : Build) (s : HostState) :
  TargetCPUFeatures.integer_division_supported cfg s
    = HostCPUFeatures.integer_division_supported cfg s /\
  TargetCPUFeatures.neon_supported cfg s
    = HostCPUFeatures.neon_supported cfg s /\
  TargetCPUFeatures.hardfp_supported cfg s
    = HostCPUFeatures.hardfp_supported cfg s /\
  TargetCPUFeatures.hardware cfg s = HostCPUFeatures.hardware cfg s /\
  TargetCPUFeatures.store_pc_read_offset cfg s
    = HostCPUFeatures.store_pc_read_offset cfg s /\
  (forall p : Probe,
      TargetCPUFeatures.Init cfg p s = HostCPUFeatures.Init cfg p s) /\
  TargetCPUFeatures.Cleanup cfg s = HostCPUFeatures.Cleanup cfg s /\
  (forall cs : list Call, run cfg cs s = run cfg (map host_of cs) s).
Proof.
  repeat split; try reflexivity.
  intros cs. symmetry. apply run_host_of.
Qed.

(** C2: double_truncate_round_supported returns false and leaves the state
    as it is, in every build and every state, whatever the initialized flag
    and the cached capabilities are; appended to any sequence of calls
    (setters included) it adds the value false to what the sequence
    returns. *)
Theorem double_truncate_round_supported_constant
  (cfg : Build) (s : HostState) (cs : list Call) :
  TargetCPUFeatures.double_truncate_round_supported cfg s = Returns false s /\
  run cfg (cs ++ [Target_double_truncate_round_supported]) s =
    match run cfg cs s with
    | Returns vs s' => Returns (vs ++ [VBool false]) s'
    | AssertionFailed => AssertionFailed
    | Undeclared => Undeclared
    end.
Proof.
  split; [reflexivity|].
  rewrite run_app. destruct (run cfg cs s); reflexivity.
Qed.

(** C3: under the simulator (HOST_ARCH_ARM not defined), in an initialized
    state, set_integer_division_supported(b) followed by
    TargetCPUFeatures::integer_division_supported() returns b, and
    set_neon_supported(b) followed by TargetCPUFeatures::neon_supported()
    returns b. *)
Theorem override_round_trip (cfg : Build) (b : bool) (s : HostState) :
  HOST_ARCH_ARM cfg = false ->
  initialized_ s = true ->
  (HostCPUFeatures.set_integer_division_supported cfg b ;;
   TargetCPUFeatures.integer_division_supported cfg) s
    = Returns b (assign_integer_division_supported_ b s) /\
  (HostCPUFeatures.set_neon_supported cfg b ;;
   TargetCPUFeatures.neon_supported cfg) s
    = Returns b (assign_neon_supported_ b s).
Proof.
  intros Harm Hinit. unfold_members. rewrite Harm, Hinit.
  destruct (DEBUG cfg); simpl; rewrite ?Hinit; split; reflexivity.
Qed.

Lemma override_round_trip_witness :
  (HostCPUFeatures.set_integer_division_supported debug_simulator true ;;
   TargetCPUFeatures.integer_division_supported debug_simulator)
    (populate cortex_a7)
    = Returns true (assign_integer_division_supported_ true (populate cortex_a7)) /\
  (HostCPUFeatures.set_neon_supported debug_simulator true ;;
   TargetCPUFeatures.neon_supported debug_simulator) (populate cortex_a7)
    = Returns true (assign_neon_supported_ true (populate cortex_a7)).
Proof.
  apply (override_round_trip debug_simulator true (populate cortex_a7));
    reflexivity.
Defined.

(** ** The assertion guards *)

(** C4: in a debug build each of the five HostCPUFeatures accessors fails
    in the assertion when the initialized flag is not set (before Init has
    completed, or after Cleanup), and otherwise returns the cached field
    and leaves the state as it is. *)
Theorem Host_accessors_assert_initialized (cfg : Build) (s : HostState) :
  DEBUG cfg = true ->
  HostCPUFeatures.hardware cfg s
    = (if initialized_ s then Returns (hardware_ s) s else AssertionFailed) /\
  HostCPUFeatures.integer_division_supported cfg s
    = (if initialized_ s then Returns (integer_division_supported_ s) s
       else AssertionFailed) /\
  HostCPUFeatures.neon_supported cfg s
    = (if initialized_ s then Returns (neon_supported_ s) s
       else AssertionFailed) /\
  HostCPUFeatures.hardfp_supported cfg s
    = (if initialized_ s then Returns (hardfp_supported_ s) s
       else AssertionFailed) /\
  HostCPUFeatures.store_pc_read_offset cfg s
    = (if initialized_ s then Returns (store_pc_read_offset_ s) s
       else AssertionFailed).
Proof.
  intros Hdbg. unfold_members. rewrite Hdbg.
  destruct (initialized_ s); repeat split; reflexivity.
Qed.

Lemma Host_accessors_assert_initialized_witness :
  HostCPUFeatures.hardware debug_arm process_start = AssertionFailed /\
  HostCPUFeatures.integer_division_supported debug_arm process_start
    = AssertionFailed /\
  HostCPUFeatures.neon_supported debug_arm process_start = AssertionFailed /\
  HostCPUFeatures.hardfp_supported debug_arm process_start = AssertionFailed /\
  HostCPUFeatures.store_pc_read_offset debug_arm process_start
    = AssertionFailed.
Proof.
  exact (Host_accessors_assert_initialized debug_arm process_start eq_refl).
Defined.

(** C10: in a debug build under the simulator, each of the two setters
    fails in the assertion when the initialized flag is not set, as the
    read accessors do; no state with an override results. *)
Theorem setters_assert_initialized (cfg : Build) (b : bool) (s : HostState) :
  DEBUG cfg = true ->
  HOST_ARCH_ARM cfg = false ->
  initialized_ s = false ->
  HostCPUFeatures.set_integer_division_supported cfg b s = AssertionFailed /\
  HostCPUFeatures.set_neon_supported cfg b s = AssertionFailed /\
  HostCPUFeatures.integer_division_supported cfg s = AssertionFailed /\
  HostCPUFeatures.neon_supported cfg s = AssertionFailed.
Proof.
  intros Hdbg Harm Hinit. unfold_members. rewrite Hdbg, Harm, Hinit.
  repeat split; reflexivity.
Qed.

Lemma setters_assert_initialized_witness :
  HostCPUFeatures.set_integer_division_supported debug_simulator true
    (release (populate cortex_a7)) = AssertionFailed /\
  HostCPUFeatures.set_neon_supported debug_simulator true
    (release (populate cortex_a7)) = AssertionFailed /\
  HostCPUFeatures.integer_division_supported debug_simulator
    (release (populate cortex_a7)) = AssertionFailed /\
  HostCPUFeatures.neon_supported debug_simulator
    (release (populate cortex_a7)) = AssertionFailed.
Proof.
  apply (setters_assert_initialized debug_simulator true
           (release (populate cortex_a7))); reflexivity.
Defined.

(** C9: double_truncate_round_supported has no initialization guard: in a
    state where initialization has not completed (before Init, after
    Cleanup) it returns false in every build, while in a debug build every
    accessor of a cached field fails in the assertion there. *)
Theorem double_truncate_round_supported_unguarded
  (cfg : Build) (s : HostState) :
  initialized_ s = false ->
  TargetCPUFeatures.double_truncate_round_supported cfg s = Returns false s /\
  call cfg Target_double_truncate_round_supported s
    = Returns (VBool false) s /\
  (DEBUG cfg = true ->
   forall c : Call, In c read_accessors -> call cfg c s = AssertionFailed).
Proof.
  intros Hinit. repeat split.
  intros Hdbg c Hc. apply read_accessors_guarded; assumption.
Qed.

Lemma double_truncate_round_supported_unguarded_witness :
  initialized_ process_start = false /\
  TargetCPUFeatures.double_truncate_round_supported debug_arm process_start
    = Returns false process_start /\
  call debug_arm Target_neon_supported process_start = AssertionFailed.
Proof.
  split; [reflexivity|].
  destruct (double_truncate_round_supported_unguarded debug_arm process_start
              eq_refl) as [Hd [_ Hguard]].
  split; [exact Hd|].
  apply (Hguard eq_refl). simpl. tauto.
Defined.

(** ** Lifecycle *)

(** C5: in a debug build, after any sequence of calls that started before
    initialization and returned, Init is rejected by the assertion exactly
    when an Init of the sequence has not been followed by a Cleanup, and
    Cleanup is rejected by the assertion exactly when the sequence has no
    Init or its last Init was followed by a Cleanup. *)
Theorem Init_Cleanup_strict_pair
  (cfg : Build) (cs : list Call) (s0 s : HostState) (vs : list Value) :
  DEBUG cfg = true ->
  initialized_ s0 = false ->
  run cfg cs s0 = Returns vs s ->
  (forall p : Probe,
      HostCPUFeatures.Init cfg p s
      = if lifecycle_open false cs then AssertionFailed
        else Returns tt (populate p)) /\
  HostCPUFeatures.Cleanup cfg s
    = (if lifecycle_open false cs then Returns tt (release s)
       else AssertionFailed).
Proof.
  intros Hdbg H0 Hrun.
  pose proof (run_lifecycle _ _ _ _ _ Hrun) as Hopen. rewrite H0 in Hopen.
  unfold_members. rewrite Hdbg, Hopen.
  destruct (lifecycle_open false cs); split; reflexivity.
Qed.

Lemma Init_Cleanup_strict_pair_witness :
  (forall p : Probe,
      HostCPUFeatures.Init debug_simulator p
        (assign_neon_supported_ false (populate cortex_a7))
      = AssertionFailed) /\
  HostCPUFeatures.Cleanup debug_simulator
    (assign_neon_supported_ false (populate cortex_a7))
    = Returns tt (release (assign_neon_supported_ false (populate cortex_a7))).
Proof.
  exact (Init_Cleanup_strict_pair debug_simulator
           [Host_Init no_data; Target_Cleanup; Target_Init cortex_a7;
            Host_set_neon_supported false]
           process_start
           (assign_neon_supported_ false (populate cortex_a7))
           [VVoid; VVoid; VVoid; VVoid]
           eq_refl eq_refl eq_refl).
Defined.

(** C7: when the probe yields no recognizable data, Init called before
    initialization returns, and in the state it leaves
    integer_division_supported(), neon_supported() and hardfp_supported()
    return false and hardware() returns a pointer to the empty string. *)
Theorem Init_default_safety (cfg : Build) (p : Probe) (s : HostState) :
  unrecognizable p ->
  initialized_ s = false ->
  exists s' : HostState,
    HostCPUFeatures.Init cfg p s = Returns tt s' /\
    HostCPUFeatures.integer_division_supported cfg s' = Returns false s' /\
    HostCPUFeatures.neon_supported cfg s' = Returns false s' /\
    HostCPUFeatures.hardfp_supported cfg s' = Returns false s' /\
    HostCPUFeatures.hardware cfg s' = Returns (Some "") s'.
Proof.
  intros (Hhw & Hdiv & Hneon & Hfp) Hinit.
  exists (populate p). unfold_members. rewrite Hinit.
  unfold populate. rewrite Hhw, Hdiv, Hneon, Hfp.
  destruct (DEBUG cfg); repeat split; reflexivity.
Qed.

Lemma Init_default_safety_witness :
  exists s' : HostState,
    HostCPUFeatures.Init debug_arm no_data process_start = Returns tt s' /\
    HostCPUFeatures.integer_division_supported debug_arm s' = Returns false s' /\
    HostCPUFeatures.neon_supported debug_arm s' = Returns false s' /\
    HostCPUFeatures.hardfp_supported debug_arm s' = Returns false s' /\
    HostCPUFeatures.hardware debug_arm s' = Returns (Some "") s'.
Proof.
  apply (Init_default_safety debug_arm no_data process_start).
  - repeat split; reflexivity.
  - reflexivity.
Defined.

(** ** Frame properties *)

(** C6: under the simulator, in an initialized state,
    set_integer_division_supported(b) returns and changes nothing but
    integer_division_supported_, which becomes b; set_neon_supported(b)
    returns and changes nothing but neon_supported_, which becomes b; and a
    call other than Init and Cleanup that returns leaves hardware_,
    hardfp_supported_, store_pc_read_offset_ and initialized_ as they
    were. *)
Theorem override_setters_frame (cfg : Build) (b : bool) (s : HostState) :
  HOST_ARCH_ARM cfg = false ->
  initialized_ s = true ->
  (exists s1 : HostState,
      HostCPUFeatures.set_integer_division_supported cfg b s = Returns tt s1 /\
      integer_division_supported_ s1 = b /\
      hardware_ s1 = hardware_ s /\
      neon_supported_ s1 = neon_supported_ s /\
      hardfp_supported_ s1 = hardfp_supported_ s /\
      store_pc_read_offset_ s1 = store_pc_read_offset_ s /\
      initialized_ s1 = initialized_ s) /\
  (exists s2 : HostState,
      HostCPUFeatures.set_neon_supported cfg b s = Returns tt s2 /\
      neon_supported_ s2 = b /\
      hardware_ s2 = hardware_ s /\
      integer_division_supported_ s2 = integer_division_supported_ s /\
      hardfp_supported_ s2 = hardfp_supported_ s /\
      store_pc_read_offset_ s2 = store_pc_read_offset_ s /\
      initialized_ s2 = initialized_ s) /\
  (forall (c : Call) (v : Value) (s' : HostState),
      is_lifecycle c = false ->
      call cfg c s = Returns v s' ->
      hardware_ s' = hardware_ s /\
      hardfp_supported_ s' = hardfp_supported_ s /\
      store_pc_read_offset_ s' = store_pc_read_offset_ s /\
      initialized_ s' = initialized_ s).
Proof.
  intros Harm Hinit. split; [|split].
  - exists (assign_integer_division_supported_ b s).
    split; [|repeat split; reflexivity].
    unfold_members. rewrite Harm, Hinit. destruct (DEBUG cfg); reflexivity.
  - exists (assign_neon_supported_ b s).
    split; [|repeat split; reflexivity].
    unfold_members. rewrite Harm, Hinit. destruct (DEBUG cfg); reflexivity.
  - intros c v s'. apply call_frame.
Qed.

Lemma override_setters_frame_witness :
  HostCPUFeatures.set_integer_division_supported release_simulator true
    (populate cortex_a7)
    = Returns tt (assign_integer_division_supported_ true (populate cortex_a7)) /\
  HostCPUFeatures.set_neon_supported release_simulator false
    (populate cortex_a7)
    = Returns tt (assign_neon_supported_ false (populate cortex_a7)) /\
  (exists s1 : HostState,
      HostCPUFeatures.set_integer_division_supported release_simulator true
        (populate cortex_a7) = Returns tt s1 /\
      integer_division_supported_ s1 = true /\
      neon_supported_ s1 = true).
Proof.
  split; [reflexivity | split; [reflexivity|]].
  destruct (override_setters_frame release_simulator true (populate cortex_a7)
              eq_refl eq_refl) as [[s1 (Hset & Hdiv & _ & Hneon & _)] _].
  exists s1. split; [exact Hset | split; [exact Hdiv | exact Hneon]].
Defined.

(** C8: in an initialized state each of the ten accessors of a cached
    field returns and leaves the whole state (the five fields and the
    initialized flag) as it is, so that calling it twice in a row returns
    the same value twice. *)
Theorem read_accessors_pure (cfg : Build) (s : HostState) (c : Call) :
  initialized_ s = true ->
  In c read_accessors ->
  exists v : Value,
    call cfg c s = Returns v s /\ run cfg [c; c] s = Returns [v; v] s.
Proof.
  intros Hinit Hc.
  assert (Hcall : exists v : Value, call cfg c s = Returns v s).
  { simpl in Hc.
    repeat (destruct Hc as [<- | Hc];
            [eexists; unfold_members; rewrite Hinit;
             destruct (DEBUG cfg); reflexivity|]).
    contradiction. }
  destruct Hcall as [v Hcall]. exists v. split; [exact Hcall|].
  apply call_twice, Hcall.
Qed.

Lemma read_accessors_pure_witness :
  exists v : Value,
    call debug_simulator Target_store_pc_read_offset (populate cortex_a7)
      = Returns v (populate cortex_a7) /\
    run debug_simulator
      [Target_store_pc_read_offset; Target_store_pc_read_offset]
      (populate cortex_a7)
      = Returns [v; v] (populate cortex_a7).
Proof.
  apply (read_accessors_pure debug_simulator (populate cortex_a7)
           Target_store_pc_read_offset).
  - reflexivity.
  - simpl. tauto.
Defined.


(** ** Runs between Init and Cleanup

    Properties of the members whose bodies are in the header, over whole
    sequences of calls. *)

Lemma no_lifecycle_cons c cs :
  no_lifecycle (c :: cs) = true ->
  is_lifecycle c = false /\ no_lifecycle cs = true.
Proof.
  unfold no_lifecycle. simpl. intros H.
  apply andb_true_iff in H. destruct H as [Hc Hcs].
  apply negb_true_iff in Hc. split; assumption.
Qed.

Lemma override_initialized c s :
  initialized_ (override c s) = initialized_ s.
Proof. destruct c; reflexivity. Qed.

(** A call of the header that returns has performed its assignment and
    nothing else. *)
Lemma call_effect cfg c s v s' :
  is_lifecycle c = false ->
  call cfg c s = Returns v s' ->
  s' = override c s.
Proof.
  destruct cfg as [dbg arm], c; simpl; try discriminate; intros _;
    unfold_members; simpl;
    destruct dbg, arm, (initialized_ s) eqn:E; simpl;
    intros H; inversion H; subst; reflexivity.
Qed.

(** When the guard passes (the flag is set, or the build has no guards) and
    the setters are declared, a call of the header returns. *)
Lemma call_returns cfg c s :
  HOST_ARCH_ARM cfg = false ->
  negb (DEBUG cfg) || initialized_ s = true ->
  is_lifecycle c = false ->
  exists v : Value, call cfg c s = Returns v (override c s).
Proof.
  destruct cfg as [dbg arm]. simpl. intros -> Hguard.
  destruct c; simpl; try discriminate; intros _; unfold_members; simpl;
    destruct dbg, (initialized_ s) eqn:E; simpl in *;
    try discriminate; eexists; reflexivity.
Qed.

Lemma run_returns cfg cs : forall s,
  HOST_ARCH_ARM cfg = false ->
  negb (DEBUG cfg) || initialized_ s = true ->
  no_lifecycle cs = true ->
  exists vs : list Value, run cfg cs s = Returns vs (overrides cs s).
Proof.
  induction cs as [|c cs IH]; intros s Harm Hguard Hcs.
  - exists []. reflexivity.
  - apply no_lifecycle_cons in Hcs. destruct Hcs as [Hc Hcs].
    destruct (call_returns cfg c s Harm Hguard Hc) as [v Hv].
    destruct (IH (override c s) Harm) as [vs Hvs];
      [rewrite override_initialized; exact Hguard | exact Hcs |].
    exists (v :: vs). rewrite run_cons, Hv, Hvs. reflexivity.
Qed.

(** X1: a run without Init and Cleanup that returns has returned one value
    per call and leaves the state that results from the assignments of its
    setter calls, taken in order; nothing else of the static storage has
    moved. *)
Theorem run_final_state
  (cfg : Build) (cs : list Call) (s s' : HostState) (vs : list Value) :
  no_lifecycle cs = true ->
  run cfg cs s = Returns vs s' ->
  s' = overrides cs s /\ length vs = length cs.
Proof.
  revert s vs. induction cs as [|c cs IH]; intros s vs Hcs Hrun.
  - inversion Hrun; subst. split; reflexivity.
  - apply no_lifecycle_cons in Hcs. destruct Hcs as [Hc Hcs].
    rewrite run_cons in Hrun.
    destruct (call cfg c s) as [v s1| |] eqn:Hcall; try discriminate.
    destruct (run cfg cs s1) as [vs1 s2| |] eqn:Hrest; try discriminate.
    inversion Hrun; subst.
    destruct (IH _ _ Hcs Hrest) as [Hs Hlen].
    rewrite (call_effect _ _ _ _ _ Hc Hcall) in Hs.
    split; [exact Hs | simpl; rewrite Hlen; reflexivity].
Qed.

Lemma run_final_state_witness :
  assign_neon_supported_ false
    (assign_integer_division_supported_ true (populate cortex_a7))
  = overrides
      [Host_set_integer_division_supported true; Target_hardware;
       Host_set_neon_supported false]
      (populate cortex_a7)
  /\ length [VVoid; VString (Some "ARMv7 Processor rev 5 (v7l)"); VVoid]
     = length
         [Host_set_integer_division_supported true; Target_hardware;
          Host_set_neon_supported false].
Proof.
  exact (run_final_state debug_simulator
           [Host_set_integer_division_supported true; Target_hardware;
            Host_set_neon_supported false]
           (populate cortex_a7) _ _ eq_refl eq_refl).
Defined.

(** X2: in a build for an ARM host the setters are not declared, so a run
    without Init and Cleanup that returns consists of queries only and
    leaves the whole static storage as it was: the cached capabilities
    cannot be overridden. *)
Theorem native_build_state_immutable
  (cfg : Build) (cs : list Call) (s s' : HostState) (vs : list Value) :
  HOST_ARCH_ARM cfg = true ->
  no_lifecycle cs = true ->
  run cfg cs s = Returns vs s' ->
  forallb is_query cs = true /\ s' = s.
Proof.
  intros Harm. revert s vs.
  induction cs as [|c cs IH]; intros s vs Hcs Hrun.
  - inversion Hrun; subst. split; reflexivity.
  - apply no_lifecycle_cons in Hcs. destruct Hcs as [Hc Hcs].
    rewrite run_cons in Hrun.
    destruct (call cfg c s) as [v s1| |] eqn:Hcall; try discriminate.
    destruct (run cfg cs s1) as [vs1 s2| |] eqn:Hrest; try discriminate.
    inversion Hrun; subst.
    assert (Hq : is_query c = true /\ s1 = s).
    { pose proof (call_effect _ _ _ _ _ Hc Hcall) as Hs1.
      destruct c; simpl in Hc; try discriminate; simpl in Hs1;
        try (split; [reflexivity | exact Hs1]);
        exfalso; revert Hcall; unfold_members; rewrite Harm; discriminate. }
    destruct Hq as [Hq ->].
    destruct (IH _ _ Hcs Hrest) as [Hqs Hs].
    split; [simpl; rewrite Hq, Hqs; reflexivity | exact Hs].
Qed.

Lemma native_build_state_immutable_witness :
  forallb is_query [Target_neon_supported; Host_hardfp_supported] = true /\
  populate cortex_a7 = populate cortex_a7.
Proof.
  exact (native_build_state_immutable debug_arm
           [Target_neon_supported; Host_hardfp_supported]
           (populate cortex_a7) (populate cortex_a7)
           [VBool true; VBool true] eq_refl eq_refl eq_refl).
Defined.

(** X3: the two setters commute: in every build and state, overriding
    integer division and then NEON has the outcome of overriding NEON and
    then integer division. *)
Theorem setters_commute (cfg : Build) (a b : bool) (s : HostState) :
  (HostCPUFeatures.set_integer_division_supported cfg a ;;
   HostCPUFeatures.set_neon_supported cfg b) s
  = (HostCPUFeatures.set_neon_supported cfg b ;;
     HostCPUFeatures.set_integer_division_supported cfg a) s.
Proof.
  unfold_members.
  destruct (HOST_ARCH_ARM cfg), (DEBUG cfg), (initialized_ s) eqn:E;
    simpl; rewrite ?E; reflexivity.
Qed.

(** X4: the last override wins: in every build and state, two calls of the
    same setter in a row have the outcome of the second call alone. *)
Theorem setter_last_write_wins (cfg : Build) (a b : bool) (s : HostState) :
  (HostCPUFeatures.set_integer_division_supported cfg a ;;
   HostCPUFeatures.set_integer_division_supported cfg b) s
  = HostCPUFeatures.set_integer_division_supported cfg b s /\
  (HostCPUFeatures.set_neon_supported cfg a ;;
   HostCPUFeatures.set_neon_supported cfg b) s
  = HostCPUFeatures.set_neon_supported cfg b s.
Proof.
  unfold_members.
  destruct (HOST_ARCH_ARM cfg), (DEBUG cfg), (initialized_ s) eqn:E;
    simpl; rewrite ?E; split; reflexivity.
Qed.

(** X5: once the initialized flag is set, no sequence of accessor and
    setter calls fails in an assertion, in any build; under the simulator
    every such sequence returns, and leaves the state its overrides
    describe. *)
Theorem initialized_run_is_safe
  (cfg : Build) (cs : list Call) (s : HostState) :
  initialized_ s = true ->
  no_lifecycle cs = true ->
  run cfg cs s <> AssertionFailed /\
  (HOST_ARCH_ARM cfg = false ->
   exists vs : list Value, run cfg cs s = Returns vs (overrides cs s)).
Proof.
  intros Hinit Hcs. split.
  - revert s Hinit. induction cs as [|c cs IH]; intros s Hinit.
    + discriminate.
    + apply no_lifecycle_cons in Hcs. destruct Hcs as [Hc Hcs].
      rewrite run_cons.
      destruct (call cfg c s) as [v s1| |] eqn:Hcall.
      * assert (Hs1 : initialized_ s1 = true).
        { rewrite (call_effect _ _ _ _ _ Hc Hcall), override_initialized.
          exact Hinit. }
        specialize (IH Hcs s1 Hs1).
        destruct (run cfg cs s1); [discriminate | contradiction | discriminate].
      * exfalso. revert Hcall.
        destruct cfg as [dbg arm], c; simpl in Hc; try discriminate;
          unfold_members; simpl; rewrite ?Hinit;
          destruct dbg, arm; discriminate.
      * discriminate.
  - intros Harm. apply run_returns; [exact Harm | | exact Hcs].
    rewrite Hinit. apply orb_true_r.
Qed.

Lemma initialized_run_is_safe_witness :
  run debug_simulator
    [Host_set_neon_supported false; Target_neon_supported;
     Target_store_pc_read_offset] (populate cortex_a7)
  <> AssertionFailed /\
  exists vs : list Value,
    run debug_simulator
      [Host_set_neon_supported false; Target_neon_supported;
       Target_store_pc_read_offset] (populate cortex_a7)
    = Returns vs
        (overrides
           [Host_set_neon_supported false; Target_neon_supported;
            Target_store_pc_read_offset] (populate cortex_a7)).
Proof.
  destruct (initialized_run_is_safe debug_simulator
              [Host_set_neon_supported false; Target_neon_supported;
               Target_store_pc_read_offset]
              (populate cortex_a7) eq_refl eq_refl) as [Hsafe Hret].
  split; [exact Hsafe | exact (Hret eq_refl)].
Defined.

(** X6: a build without DEBUG checks nothing: under the simulator every
    sequence of accessor and setter calls returns in every state, also in
    one where initialization has not completed, so that overrides are
    applied to, and accessors read, whatever the static storage holds. *)
Theorem release_build_unchecked
  (cfg : Build) (cs : list Call) (s : HostState) :
  DEBUG cfg = false ->
  HOST_ARCH_ARM cfg = false ->
  no_lifecycle cs = true ->
  exists vs : list Value, run cfg cs s = Returns vs (overrides cs s).
Proof.
  intros Hdbg Harm Hcs. apply run_returns; [exact Harm | | exact Hcs].
  rewrite Hdbg. reflexivity.
Qed.

Lemma release_build_unchecked_witness :
  exists vs : list Value,
    run release_simulator
      [Target_hardware; Host_set_integer_division_supported true;
       Target_integer_division_supported] process_start
    = Returns vs
        (overrides
           [Target_hardware; Host_set_integer_division_supported true;
            Target_integer_division_supported] process_start).
Proof.
  exact (release_build_unchecked release_simulator
           [Target_hardware; Host_set_integer_division_supported true;
            Target_integer_division_supported] process_start
           eq_refl eq_refl eq_refl).
Defined.

(** X7: queries do not interfere: when a sequence of calls returns, the
    sequence with every accessor call and every
    double_truncate_round_supported call removed returns too, and leaves the
    same state. *)
Theorem queries_do_not_interfere
  (cfg : Build) (cs : list Call) (s s' : HostState) (vs : list Value) :
  run cfg cs s = Returns vs s' ->
  exists vs' : list Value,
    run cfg (filter (fun c => negb (is_query c)) cs) s = Returns vs' s'.
Proof.
  revert s vs. induction cs as [|c cs IH]; intros s vs Hrun.
  - inversion Hrun; subst. exists []. reflexivity.
  - rewrite run_cons in Hrun.
    destruct (call cfg c s) as [v s1| |] eqn:Hcall; try discriminate.
    destruct (run cfg cs s1) as [vs1 s2| |] eqn:Hrest; try discriminate.
    inversion Hrun; subst.
    destruct (IH _ _ Hrest) as [vs' Hvs']. simpl filter.
    destruct (is_query c) eqn:Hq; simpl negb; cbv iota.
    + assert (Hc : is_lifecycle c = false) by (destruct c; simpl in *; congruence).
      pose proof (call_effect _ _ _ _ _ Hc Hcall) as Hs1.
      replace (override c s) with s in Hs1
        by (destruct c; simpl in *; congruence).
      subst s1. exists vs'. exact Hvs'.
    + exists (v :: vs'). rewrite run_cons, Hcall, Hvs'. reflexivity.
Qed.

Lemma queries_do_not_interfere_witness :
  exists vs' : list Value,
    run debug_simulator
      (filter (fun c => negb (is_query c))
         [Target_neon_supported; Host_set_neon_supported false;
          Target_neon_supported; Target_double_truncate_round_supported])
      (populate cortex_a7)
    = Returns vs' (assign_neon_supported_ false (populate cortex_a7)).
Proof.
  exact (queries_do_not_interfere debug_simulator
           [Target_neon_supported; Host_set_neon_supported false;
            Target_neon_supported; Target_double_truncate_round_supported]
           (populate cortex_a7)
           (assign_neon_supported_ false (populate cortex_a7))
           [VBool true; VVoid; VBool false; VBool false] eq_refl).
Defined.

(** X8: writing back what was read changes nothing: under the simulator,
    in an initialized state, reading integer_division_supported() and
    passing the value to set_integer_division_supported leaves the static
    storage as it was, and so for neon_supported() and
    set_neon_supported. *)
Theorem write_back_is_noop (cfg : Build) (s : HostState) :
  HOST_ARCH_ARM cfg = false ->
  initialized_ s = true ->
  (b <- TargetCPUFeatures.integer_division_supported cfg ;;
   HostCPUFeatures.set_integer_division_supported cfg b) s = Returns tt s /\
  (b <- TargetCPUFeatures.neon_supported cfg ;;
   HostCPUFeatures.set_neon_supported cfg b) s = Returns tt s.
Proof.
  intros Harm Hinit. unfold_members. rewrite Harm, Hinit.
  destruct s as [hw idiv neon hardfp offset init]. simpl in Hinit. subst init.
  destruct (DEBUG cfg); split; reflexivity.
Qed.

Lemma write_back_is_noop_witness :
  (b <- TargetCPUFeatures.integer_division_supported debug_simulator ;;
   HostCPUFeatures.set_integer_division_supported debug_simulator b)
    (populate cortex_a7) = Returns tt (populate cortex_a7) /\
  (b <- TargetCPUFeatures.neon_supported debug_simulator ;;
   HostCPUFeatures.set_neon_supported debug_simulator b)
    (populate cortex_a7) = Returns tt (populate cortex_a7).
Proof.
  exact (write_back_is_noop debug_simulator (populate cortex_a7)
           eq_refl eq_refl).
Defined.

(** X9: in a debug build, while the initialized flag is not set, the only
    member other than Init and Cleanup that can be called is
    double_truncate_round_supported: a run without Init and Cleanup that
    returns consists of calls of it alone, has returned false each time,
    and leaves the state as it was. *)
Theorem uninitialized_debug_run
  (cfg : Build) (cs : list Call) (s s' : HostState) (vs : list Value) :
  DEBUG cfg = true ->
  initialized_ s = false ->
  no_lifecycle cs = true ->
  run cfg cs s = Returns vs s' ->
  cs = repeat Target_double_truncate_round_supported (length cs) /\
  vs = repeat (VBool false) (length cs) /\
  s' = s.
Proof.
  intros Hdbg Hinit. revert vs.
  induction cs as [|c cs IH]; intros vs Hcs Hrun.
  - inversion Hrun; subst. repeat split.
  - apply no_lifecycle_cons in Hcs. destruct Hcs as [Hc Hcs].
    rewrite run_cons in Hrun.
    destruct (call cfg c s) as [v s1| |] eqn:Hcall; try discriminate.
    destruct (run cfg cs s1) as [vs1 s2| |] eqn:Hrest; try discriminate.
    inversion Hrun; subst.
    assert (Hd : c = Target_double_truncate_round_supported /\
                 v = VBool false /\ s1 = s).
    { revert Hcall. destruct c; simpl in Hc; try discriminate;
        unfold_members; rewrite ?Hdbg, ?Hinit;
        destruct (HOST_ARCH_ARM cfg); try discriminate;
        intros H; inversion H; repeat split. }
    destruct Hd as (-> & -> & ->).
    destruct (IH _ Hcs Hrest) as (Hcs' & Hvs' & Hs').
    simpl. rewrite <- Hcs', <- Hvs'. repeat split. exact Hs'.
Qed.

Lemma uninitialized_debug_run_witness :
  [Target_double_truncate_round_supported;
   Target_double_truncate_round_supported]
  = repeat Target_double_truncate_round_supported 2 /\
  [VBool false; VBool false] = repeat (VBool false) 2 /\
  process_start = process_start.
Proof.
  exact (uninitialized_debug_run debug_arm
           [Target_double_truncate_round_supported;
            Target_double_truncate_round_supported]
           process_start process_start [VBool false; VBool false]
           eq_refl eq_refl eq_refl eq_refl).
Defined.
